(** * Humansense native classifier bindings (jni/jni_api.cpp)

    A shallow embedding of the JNI entry points of
    [ca.mcgill.hs.plugin.SimpleClassifierPlugin] and of the part of the
    classification engine they call.

    Conventions.
    - [jfloat] / [ANNcoord] values are idealised as real numbers.
    - A Java [float[]] is a reference into a store of arrays, so that two
      arguments of one call may be the same array.
    - The global [Classifier *classifier] is an [option]: [None] is [NULL].
    - A native call either returns, with a value and a new state, or its
      behaviour is undefined in C++ (null dereference, access outside an
      array, division by zero); the latter is a [Fault].
    - The [buildTree] binding, which only forwards its arguments to the
      index builder, is not modelled. *)

From Stdlib Require Import Reals Lra.
From stdpp Require Import gmap strings list fin_maps.

Local Open Scope R_scope.

(** ** Engine data (Classifier.h is not part of the sources at hand) *)

(** Modelled from the spec: the Model record of the data model (section 3);
    Classifier.h, which declares it, is missing.  The index is given by its
    reference points. *)
Record Model := mkModel {
  name : string;
  dim : nat;
  windowSize : nat;
  index : list (list R)
}.

(** Modelled from the spec: the ModelCollection owned by the [Classifier]
    object (section 3): the models in ordinal order. *)
Record Classifier := mkClassifier {
  models : list Model
}.

(** The constants and transforms of the engine that neither the bindings nor
    the spec fix: [Classifier::MATCH_STEPS], the temperature of the scoring
    transform, the delimiter of [getModelNames] and the per-model projection
    of a raw window ([projection m ptr n] projects [n] steps read from
    [ptr]). *)
Record Config := mkConfig {
  MATCH_STEPS : nat;
  tau : R;
  delimiter : string;
  projection : Model → list R → nat → list R
}.

(** ** The state the bindings run in *)

(** A Java array reference ([jfloatArray]). *)
Abbreviation jarray := nat (only parsing).

(** Calls into the engine, in the order they were made. *)
Inductive Event :=
  | EvLoad (modelsFile : string) (loaded : bool)
  | EvClassifyTrajectory (inputFile outputFile : string)
  | EvCleanUp.

Record State := mkState {
  classifier : option Classifier;       (* extern Classifier *classifier *)
  kd_trivial : bool;                    (* ANN's process-wide allocation *)
  heap : gmap nat (list R);             (* the Java float arrays *)
  pinned : nat;                         (* open critical sections *)
  pending : bool;                       (* a Java exception is pending *)
  files : gmap string Classifier;       (* readable, well-formed model files *)
  trace : list Event                    (* engine calls made so far *)
}.

Definition set_classifier (c : option Classifier) (s : State) : State :=
  mkState c (kd_trivial s) (heap s) (pinned s) (pending s) (files s) (trace s).
Definition set_kd_trivial (b : bool) (s : State) : State :=
  mkState (classifier s) b (heap s) (pinned s) (pending s) (files s) (trace s).
Definition set_heap (h : gmap nat (list R)) (s : State) : State :=
  mkState (classifier s) (kd_trivial s) h (pinned s) (pending s) (files s) (trace s).
Definition set_pinned (n : nat) (s : State) : State :=
  mkState (classifier s) (kd_trivial s) (heap s) n (pending s) (files s) (trace s).
Definition set_pending (b : bool) (s : State) : State :=
  mkState (classifier s) (kd_trivial s) (heap s) (pinned s) b (files s) (trace s).
Definition log (e : Event) (s : State) : State :=
  mkState (classifier s) (kd_trivial s) (heap s) (pinned s) (pending s) (files s)
          (trace s ++ [e]).

(** Undefined behaviour of the C++ code. *)
Inductive FaultKind := NullDereference | OutOfBounds | DivisionByZero.

Inductive Result (A : Type) :=
  | Done (a : A) (s : State)
  | Fault (k : FaultKind).
Arguments Done {A} a s.
Arguments Fault {A} k.

Definition Native (A : Type) : Type := State → Result A.

#[global] Instance Native_ret : MRet Native := λ A a s, Done a s.
#[global] Instance Native_bind : MBind Native := λ A B f m s,
  match m s with
  | Done a s' => f a s'
  | Fault k => Fault k
  end.

Definition fault {A} (k : FaultKind) : Native A := λ _, Fault k.
Definition get : Native State := λ s, Done s s.
Definition modify (f : State → State) : Native unit := λ s, Done tt (f s).

(** The value of a partial engine computation; its failure is the fault [k]. *)
Definition lift {A} (k : FaultKind) (o : option A) : Native A :=
  match o with
  | Some a => mret a
  | None => fault k
  end.

(** [for (i = 0; i < n; i++) a = body(i, a);] run over the indices [ix]. *)
Fixpoint for_ {A} (ix : list nat) (body : nat → A → Native A) (a : A) : Native A :=
  match ix with
  | [] => mret a
  | i :: ix' => a' ← body i a; for_ ix' body a'
  end.

#[global] Instance R_eq_dec : EqDecision R := Req_dec_T.

Definition Rsum (l : list R) : R := foldr Rplus 0 l.

(** ** The engine behind the bindings

    ANN/ANNx.h, Classifier.h, BuildTree.h and ClassifyTrajectory.h are not
    among the sources; what the bindings call is modelled from the spec. *)
Module Engine.

(** Modelled from the spec: the Euclidean (Minkowski p=2) metric of section
    4.1, on the coordinates two vectors share. *)
Definition euclid (p q : list R) : R :=
  sqrt (Rsum (zip_with (λ a b, (a - b) * (a - b)) p q)).

(** Modelled from the spec: ANN's [annDist(dim, p, q)], "exact pairwise
    Euclidean distance between two dim-length vectors" (section 6).  It reads
    [p[0..dim-1]] and [q[0..dim-1]]; [None] when that leaves an array. *)
Definition annDist (dim : Z) (p q : list R) : option R :=
  if decide (Z.to_nat dim ≤ length p ∧ Z.to_nat dim ≤ length q)%nat
  then Some (euclid (take (Z.to_nat dim) p) (take (Z.to_nat dim) q))
  else None.

(** Modelled from the spec: ANN's [annClose()], which "releases any
    process-wide resources held by the spatial-search subsystem"
    (section 6). *)
Definition annClose : Native unit := modify (set_kd_trivial false).

(** Modelled from the spec: [loadModels(path)], the ModelStore's load of
    section 4.2: "load either fully succeeds or the prior/empty collection is
    left untouched"; a reload is a full replace. *)
Definition loadModels (fmodel_name : string) : Native unit :=
  s ← get;
  match files s !! fmodel_name with
  | Some c => modify (set_classifier (Some c));; modify (log (EvLoad fmodel_name true))
  | None => modify (log (EvLoad fmodel_name false))
  end.

(** Modelled from the spec: [cleanUpModels()], the ModelStore's unload of
    section 4.2, which releases what the collection owns and returns to the
    Idle state; with nothing loaded there is nothing to release. *)
Definition cleanUpModels : Native unit :=
  s ← get;
  match classifier s with
  | Some _ => modify (set_classifier None);; modify (log EvCleanUp)
  | None => modify (log EvCleanUp)
  end.

(** Modelled from the spec: [classifyTrajectory(in, out)] of
    ClassifyTrajectory.h, the streaming pass of section 4.4 over a whole
    file.  Only the fact that it ran is kept; file contents are outside this
    model. *)
Definition classifyTrajectory (fin_name fout_name : string) : Native unit :=
  modify (log (EvClassifyTrajectory fin_name fout_name)).

(** Modelled from the spec: [numModels], [windowSize] and [names] of
    section 4.2.  The window size is uniform over a collection by design, so
    it is read off its first model. *)
Definition getNumModels (c : Classifier) : nat := length (models c).

Definition getWindowSize (c : Classifier) : nat :=
  match models c with
  | [] => 0%nat
  | m :: _ => windowSize m
  end.

Definition getModelNames (cfg : Config) (c : Classifier) : string :=
  String.concat (delimiter cfg) (map name (models c)).

(** Modelled from the spec: [Classifier::getProjectedData(i, ptr, n)], the
    ProjectedWindow of model [i] (sections 3 and 4.4): the sub-range
    [ptr[0 .. n-1]] of the window projected into the model's feature space.
    It reads the [n] steps through the raw pointer; [None] when fewer than
    [n] remain in the array. *)
Definition getProjectedData (cfg : Config) (c : Classifier) (i : nat)
    (ptr : list R) (n : nat) : option (list R) :=
  if decide (n ≤ length ptr)%nat
  then Some (match models c !! i with
             | Some m => projection cfg m (take n ptr) n
             | None => []
             end)
  else None.

(** Modelled from the spec: [queryNearest(q, 1)] of section 4.1, as the
    distance to the nearest reference point; an empty index answers with
    the empty result. *)
Definition queryNearest1 (idx : list (list R)) (q : list R) : option R :=
  match idx with
  | [] => None
  | p :: ps => Some (foldr (λ p' d, Rmin (euclid q p') d) (euclid q p) ps)
  end.

(** Modelled from the spec: the score [s_i = exp(-d_i / τ)] of section 4.4;
    zero for a model without reference points. *)
Definition score (cfg : Config) (m : Model) (q : list R) : R :=
  match queryNearest1 (index m) q with
  | Some d => exp (- d / tau cfg)
  | None => 0
  end.

(** The quotient [a / b] of the C++ code: not defined for a zero divisor. *)
Definition divide (a b : R) : option R :=
  if decide (b = 0) then None else Some (a / b).

(** Modelled from the spec: "Normalize: p_i = s_i / Σ_j s_j.  If all s_i are
    zero, return a zero ProbabilityVector rather than dividing by zero."
    [None] when a division by zero is carried out. *)
Definition normalize (ss : list R) : option (list R) :=
  if decide (Forall (λ s, s = 0) ss)
  then Some (map (λ _, 0) ss)
  else mapM (λ s, divide s (Rsum ss)) ss.

(** Modelled from the spec: [Classifier::classify(data, steps)], the scoring
    of section 4.4 on the projected windows [data], one per model. *)
Definition classify (cfg : Config) (c : Classifier) (data : list (list R))
    (steps : nat) : option (list R) :=
  normalize (zip_with (score cfg) (models c) data).

End Engine.

(** ** The JNI environment *)

Inductive ReleaseMode :=
  | COMMIT        (* mode 0: copy back and free the buffer *)
  | JNI_ABORT.    (* free the buffer without copying back *)

(** [env->GetPrimitiveArrayCritical(a, &isCopy)]: the elements of [a], or
    [NULL] with an exception pending when they cannot be obtained. *)
Definition GetPrimitiveArrayCritical (a : jarray) : Native (option (list R)) :=
  s ← get;
  match heap s !! a with
  | Some elems => modify (set_pinned (S (pinned s)));; mret (Some elems)
  | None => modify (set_pending true);; mret None
  end.

(** [env->ReleasePrimitiveArrayCritical(a, buf, mode)]. *)
Definition ReleasePrimitiveArrayCritical (a : jarray) (buf : list R)
    (mode : ReleaseMode) : Native unit :=
  s ← get;
  match mode with
  | COMMIT => modify (set_heap (<[a := buf]> (heap s)))
  | JNI_ABORT => mret tt
  end;;
  modify (λ s', set_pinned (pred (pinned s')) s').

(** [sample + startIndex]: a pointer into, or one past the end of, the
    array; anything else is undefined. *)
Definition offset (sample : list R) (startIndex : Z) : Native (list R) :=
  if decide (0 ≤ startIndex ≤ Z.of_nat (length sample))%Z
  then mret (drop (Z.to_nat startIndex) sample)
  else fault OutOfBounds.

(** [output[i] = x]. *)
Definition store (output : list R) (i : nat) (x : R) : Native (list R) :=
  if decide (i < length output)%nat
  then mret (<[i := x]> output)
  else fault OutOfBounds.

(** [CV_MAT_ELEM( *probs, ANNcoord, 0, i)]. *)
Definition CV_MAT_ELEM (probs : list R) (i : nat) : Native R :=
  match probs !! i with
  | Some x => mret x
  | None => fault OutOfBounds
  end.

(** ** The native methods of SimpleClassifierPlugin (jni_api.cpp) *)
Module Plugin.

Definition annDist (dim : Z) (p q : jarray) : Native R :=
  pa ← GetPrimitiveArrayCritical p;
  qa ← GetPrimitiveArrayCritical q;
  match pa, qa with
  | Some pa, Some qa =>
      match Engine.annDist dim pa qa with
      | Some dist =>
          ReleasePrimitiveArrayCritical p pa JNI_ABORT;;
          ReleasePrimitiveArrayCritical q qa JNI_ABORT;;
          mret dist
      | None => fault OutOfBounds
      end
  | _, _ => mret 0                       (* exception already pending. *)
  end.

Definition annClose : Native unit := Engine.annClose.

Definition classifyTrajectory (inputFile outputFile modelsFile : string)
    : Native unit :=
  Engine.loadModels modelsFile;;
  Engine.classifyTrajectory inputFile outputFile;;
  Engine.cleanUpModels.

Definition loadModels (modelsFile : string) : Native unit :=
  Engine.loadModels modelsFile.

Definition deleteModels : Native unit := Engine.cleanUpModels.

Definition getNumModels : Native Z :=
  s ← get;
  match classifier s with
  | None => mret 0%Z
  | Some c => mret (Z.of_nat (Engine.getNumModels c))
  end.

Definition getWindowSize : Native Z :=
  s ← get;
  match classifier s with
  | None => mret 0%Z
  | Some c => mret (Z.of_nat (Engine.getWindowSize c))
  end.

Definition getModelNames (cfg : Config) : Native string :=
  s ← get;
  match classifier s with
  | None => mret ""%string
  | Some c => mret (Engine.getModelNames cfg c)
  end.

Definition classifySample (cfg : Config) (in_ : jarray) (startIndex : Z)
    (out : jarray) : Native unit :=
  s ← get;
  match classifier s with
  | None => fault NullDereference        (* classifier->getNumModels() *)
  | Some c =>
      let M := Engine.getNumModels c in
      sample ← GetPrimitiveArrayCritical in_;
      match sample with
      | None => mret tt                  (* exception already pending. *)
      | Some sample =>
          data ← for_ (seq 0 M) (λ i data,
                    ptr ← offset sample startIndex;
                    d ← lift OutOfBounds
                          (Engine.getProjectedData cfg c i ptr (MATCH_STEPS cfg + 1));
                    mret (data ++ [d])) [];
          probs ← lift DivisionByZero (Engine.classify cfg c data (MATCH_STEPS cfg));
          ReleasePrimitiveArrayCritical in_ sample JNI_ABORT;;
          output ← GetPrimitiveArrayCritical out;
          match output with
          | None => mret tt              (* exception already pending *)
          | Some output =>
              output' ← for_ (seq 0 M) (λ i output,
                           x ← CV_MAT_ELEM probs i;
                           store output i x) output;
              ReleasePrimitiveArrayCritical out output' COMMIT
          end
      end
  end.

End Plugin.

(** ** What [classifySample] computes *)

(** The projected windows handed to [classify] by [classifySample], when
    [MATCH_STEPS + 1] steps can be read at [startIndex]. *)
Definition projected (cfg : Config) (c : Classifier) (sample : list R)
    (startIndex : Z) : list (list R) :=
  map (λ i, default [] (Engine.getProjectedData cfg c i
                          (drop (Z.to_nat startIndex) sample)
                          (MATCH_STEPS cfg + 1)))
      (seq 0 (Engine.getNumModels c)).

(** The probabilities [classifySample] copies into [out]. *)
Definition probabilities (cfg : Config) (c : Classifier) (sample : list R)
    (startIndex : Z) : list R :=
  default [] (Engine.classify cfg c (projected cfg c sample startIndex)
                (MATCH_STEPS cfg)).

(** The steps [startIndex .. startIndex + MATCH_STEPS] lie inside the
    window. *)
Definition in_window (cfg : Config) (sample : list R) (startIndex : Z) : Prop :=
  (0 ≤ startIndex ∧ startIndex + Z.of_nat (MATCH_STEPS cfg) < Z.of_nat (length sample))%Z.

(** Some model of the collection holds a reference point. *)
Definition indexed (c : Classifier) : Prop :=
  Exists (λ m, index m ≠ []) (models c).

(** ** Concrete states used to exercise the statements *)

Definition cfg0 : Config := mkConfig 1 1 "," (λ _ ptr n, take n ptr).

Definition modelA : Model := mkModel "A" 2 5 [[0; 0]].
Definition modelB : Model := mkModel "B" 2 5 [[10; 0]].
Definition twoModels : Classifier := mkClassifier [modelA; modelB].

(** Nothing loaded; array 1 is a window, arrays 2, 3 and 4 are output
    buffers of three, zero and two entries. *)
Definition idle : State :=
  mkState None true
          (<[1%nat := [10; 0; 10; 0]]>
             (<[2%nat := [7; 7; 7]]> (<[3%nat := []]> (<[4%nat := [7; 7]]> ∅))))
          0 false ∅ [].

(** The same with a collection of two models loaded. *)
Definition ready : State := set_classifier (Some twoModels) idle.

(** ** Running native code *)

Lemma bind_Done {A B} (m : Native A) (f : A → Native B) s a s' :
  m s = Done a s' → (m ≫= f) s = f a s'.
Proof. intros H. unfold mbind, Native_bind. by rewrite H. Qed.

Lemma bind_Fault {A B} (m : Native A) (f : A → Native B) s k :
  m s = Fault k → (m ≫= f) s = Fault k.
Proof. intros H. unfold mbind, Native_bind. by rewrite H. Qed.

Ltac run := unfold mbind, Native_bind, mret, Native_ret, get, modify, fault.

Lemma pin_Some a elems s :
  heap s !! a = Some elems →
  GetPrimitiveArrayCritical a s = Done (Some elems) (set_pinned (S (pinned s)) s).
Proof. intros H. unfold GetPrimitiveArrayCritical. run. by rewrite H. Qed.

Lemma pin_None a s :
  heap s !! a = None →
  GetPrimitiveArrayCritical a s = Done None (set_pending true s).
Proof. intros H. unfold GetPrimitiveArrayCritical. run. by rewrite H. Qed.

Lemma release_abort a buf s :
  ReleasePrimitiveArrayCritical a buf JNI_ABORT s
  = Done tt (set_pinned (pred (pinned s)) s).
Proof. reflexivity. Qed.

Lemma release_commit a buf s :
  ReleasePrimitiveArrayCritical a buf COMMIT s
  = Done tt (set_pinned (pred (pinned s)) (set_heap (<[a := buf]> (heap s)) s)).
Proof. reflexivity. Qed.

Lemma pin_release_state s :
  set_pinned (pred (pinned (set_pinned (S (pinned s)) s))) (set_pinned (S (pinned s)) s) = s.
Proof. by destruct s. Qed.

(** The loop that projects the window for each model. *)
Lemma for_project (g : nat → list R → option (list R)) sample startIndex ix acc s :
  (0 ≤ startIndex ≤ Z.of_nat (length sample))%Z →
  (∀ i, is_Some (g i (drop (Z.to_nat startIndex) sample))) →
  for_ ix (λ i data, ptr ← offset sample startIndex;
                     d ← lift OutOfBounds (g i ptr);
                     mret (data ++ [d])) acc s
  = Done (acc ++ map (λ i, default [] (g i (drop (Z.to_nat startIndex) sample))) ix) s.
Proof.
  intros Hr Hg. unfold offset. rewrite decide_True by done. run.
  revert acc. induction ix as [|i ix IH]; intros acc; simpl.
  - by rewrite app_nil_r.
  - run. destruct (Hg i) as [d ->]. simpl. run.
    rewrite IH. by rewrite <- app_assoc.
Qed.

(** The loop that copies the probabilities into the output buffer. *)
Lemma for_store (probs : list R) n : ∀ k output s,
  (k + n ≤ length probs)%nat → (k + n ≤ length output)%nat →
  for_ (seq k n) (λ i output, x ← CV_MAT_ELEM probs i; store output i x) output s
  = Done (take k output ++ take n (drop k probs) ++ drop (k + n) output) s.
Proof.
  unfold CV_MAT_ELEM, store. run.
  induction n as [|n IH]; intros k output s Hp Ho; simpl.
  - rewrite Nat.add_0_r, take_drop. reflexivity.
  - destruct (lookup_lt_is_Some_2 probs k) as [x Hx]; [lia|].
    run. rewrite Hx. rewrite decide_True by lia.
    rewrite IH by (rewrite ?length_insert; lia).
    f_equal.
    rewrite (take_S_r (<[k:=x]> output) k x)
      by (apply list_lookup_insert_eq; lia).
    rewrite take_insert_ge by lia.
    rewrite drop_insert_lt by lia.
    rewrite (drop_S probs x k Hx). simpl.
    rewrite <- app_assoc. simpl.
    by rewrite Nat.add_succ_r.
Qed.

(** *** Sums of non-negative reals *)

Lemma Rsum_nonneg l : Forall (λ x, 0 <= x) l → 0 <= Rsum l.
Proof. induction 1; simpl; lra. Qed.

Lemma Rsum_zero l : Forall (λ x, x = 0) l → Rsum l = 0.
Proof. induction 1; simpl; lra. Qed.

Lemma Rsum_ge_elem l x : Forall (λ x, 0 <= x) l → x ∈ l → x <= Rsum l.
Proof.
  induction 1 as [|y l Hy Hl IH]; intros Hx.
  - by apply elem_of_nil in Hx.
  - apply elem_of_cons in Hx as [->|Hx]; simpl.
    + pose proof (Rsum_nonneg l Hl). lra.
    + specialize (IH Hx). lra.
Qed.

Lemma Rsum_pos l :
  Forall (λ x, 0 <= x) l → ¬ Forall (λ x, x = 0) l → 0 < Rsum l.
Proof.
  induction 1 as [|y l Hy Hl IH]; intros Hnz.
  - by destruct Hnz.
  - simpl. pose proof (Rsum_nonneg l Hl).
    destruct (decide (y = 0)) as [->|Hy0]; [|lra].
    rewrite Rplus_0_l. apply IH. intros Hall. apply Hnz. by constructor.
Qed.

Lemma Rsum_scale l k : Rsum (map (λ s, s / k) l) = Rsum l / k.
Proof. induction l as [|x l IH]; simpl; [|rewrite IH]; lra. Qed.

(** *** Normalisation *)

Lemma mapM_divide ss k :
  k ≠ 0 → mapM (λ s, Engine.divide s k) ss = Some (map (λ s, s / k) ss).
Proof.
  intros Hk. induction ss as [|x ss IH]; [done|].
  simpl. rewrite IH. unfold Engine.divide. rewrite decide_False by done.
  done.
Qed.

(** On non-negative scores the normalisation divides by a non-zero sum, if
    it divides at all, and yields a probability vector. *)
Lemma normalize_nonneg ss :
  Forall (λ s, 0 <= s) ss →
  ∃ pv, Engine.normalize ss = Some pv
        ∧ length pv = length ss
        ∧ Forall (λ p, 0 <= p <= 1) pv
        ∧ (¬ Forall (λ s, s = 0) ss → Rsum pv = 1)
        ∧ (Forall (λ s, s = 0) ss → Forall (λ p, p = 0) pv).
Proof.
  intros Hnn. unfold Engine.normalize. case_decide as Hz.
  - eexists. split_and!; [done|by rewrite length_map|..|done|].
    + apply Forall_forall. intros p Hp.
      apply list_elem_of_fmap in Hp as [? [-> _]]. lra.
    + intros _. apply Forall_forall. intros p Hp.
      by apply list_elem_of_fmap in Hp as [? [-> _]].
  - pose proof (Rsum_pos ss Hnn Hz) as Hpos.
    rewrite mapM_divide by lra.
    eexists. split_and!; [done|by rewrite length_map|..|done].
    + apply Forall_forall. intros p Hp.
      apply list_elem_of_fmap in Hp as [s [-> Hs]].
      pose proof (Rsum_ge_elem ss s Hnn Hs) as Hle.
      assert (0 <= s) as H0 by (by eapply Forall_forall in Hnn).
      split.
      * apply Rmult_le_pos; [done|]. left. by apply Rinv_0_lt_compat.
      * apply (Rmult_le_reg_r (Rsum ss)); [done|].
        unfold Rdiv. rewrite Rmult_assoc, Rinv_l by lra. lra.
    + intros _. rewrite Rsum_scale. by apply Rdiv_diag, Rgt_not_eq.
Qed.

(** *** Scores *)

Lemma score_nonneg cfg m q : 0 <= Engine.score cfg m q.
Proof.
  unfold Engine.score. destruct (Engine.queryNearest1 _ _); [|lra].
  left. apply exp_pos.
Qed.

Lemma score_pos cfg m q : index m ≠ [] → 0 < Engine.score cfg m q.
Proof.
  unfold Engine.score, Engine.queryNearest1. destruct (index m); [done|].
  intros _. apply exp_pos.
Qed.

Lemma score_empty cfg m q : index m = [] → Engine.score cfg m q = 0.
Proof. unfold Engine.score, Engine.queryNearest1. by intros ->. Qed.

Section Scores.
Context (cfg : Config).

Lemma scores_nonneg ms data :
  Forall (λ s, 0 <= s) (zip_with (Engine.score cfg) ms data).
Proof.
  revert data. induction ms as [|m ms IH]; intros [|q data]; simpl;
    constructor; auto using score_nonneg.
Qed.

Lemma scores_not_all_zero ms data :
  length data = length ms →
  Exists (λ m, index m ≠ []) ms →
  ¬ Forall (λ s, s = 0) (zip_with (Engine.score cfg) ms data).
Proof.
  intros Hlen Hex. revert data Hlen.
  induction Hex as [m ms Hm|m ms Hex IH]; intros [|q data] Hlen;
    simpl in *; try discriminate; intros Hall; inversion Hall; subst.
  - pose proof (score_pos cfg m q Hm). lra.
  - eapply IH; [|done]. lia.
Qed.

Lemma scores_all_zero ms data :
  Forall (λ m, index m = []) ms →
  Forall (λ s, s = 0) (zip_with (Engine.score cfg) ms data).
Proof.
  intros Hall. revert data. induction Hall as [|m ms Hm Hall IH];
    intros [|q data]; simpl; constructor; auto using score_empty.
Qed.
End Scores.

(** *** The probability vector *)

Lemma classify_vector cfg c data steps :
  length data = length (models c) →
  ∃ pv, Engine.classify cfg c data steps = Some pv
        ∧ length pv = length (models c)
        ∧ Forall (λ p, 0 <= p <= 1) pv
        ∧ (indexed c → Rsum pv = 1)
        ∧ (¬ indexed c → Forall (λ p, p = 0) pv).
Proof.
  intros Hlen. unfold Engine.classify.
  destruct (normalize_nonneg _ (scores_nonneg cfg (models c) data))
    as (pv & E & Hl & Hr & Hs & Hz).
  exists pv. split_and!; [done| |done|..].
  - rewrite Hl, length_zip_with. lia.
  - intros Hex. by apply Hs, scores_not_all_zero.
  - intros Hno. apply Hz, scores_all_zero.
    apply Forall_forall. intros m Hm.
    destruct (index m) eqn:Ei; [done|]. destruct Hno.
    apply Exists_exists. exists m. split; [done|]. by rewrite Ei.
Qed.

Lemma probabilities_vector cfg c sample startIndex :
  Engine.classify cfg c (projected cfg c sample startIndex) (MATCH_STEPS cfg)
  = Some (probabilities cfg c sample startIndex)
  ∧ length (probabilities cfg c sample startIndex) = Engine.getNumModels c
  ∧ Forall (λ p, 0 <= p <= 1) (probabilities cfg c sample startIndex)
  ∧ (indexed c → Rsum (probabilities cfg c sample startIndex) = 1)
  ∧ (¬ indexed c → Forall (λ p, p = 0) (probabilities cfg c sample startIndex)).
Proof.
  destruct (classify_vector cfg c (projected cfg c sample startIndex) (MATCH_STEPS cfg))
    as (pv & E & H); [unfold projected; by rewrite length_map, length_seq|].
  unfold probabilities. by rewrite E.
Qed.

Lemma length_probabilities cfg c sample startIndex :
  length (probabilities cfg c sample startIndex) = Engine.getNumModels c.
Proof. apply probabilities_vector. Qed.

Lemma probabilities_range cfg c sample startIndex :
  Forall (λ p, 0 <= p <= 1) (probabilities cfg c sample startIndex).
Proof. apply probabilities_vector. Qed.

(** With [MATCH_STEPS + 1] steps inside the window the projection reads
    inside the array. *)
Lemma getProjectedData_in_window cfg c sample startIndex i :
  in_window cfg sample startIndex →
  is_Some (Engine.getProjectedData cfg c i (drop (Z.to_nat startIndex) sample)
             (MATCH_STEPS cfg + 1)).
Proof.
  intros [H0 Hn]. unfold Engine.getProjectedData.
  rewrite decide_True by (rewrite length_drop; lia). by eexists.
Qed.

(** What a call of [classifySample] does once a collection is loaded, both
    arrays can be pinned, the steps to project are inside the window and the
    output buffer has room for one entry per model. *)
Lemma classifySample_loaded cfg in_ startIndex out s c sample output :
  classifier s = Some c →
  heap s !! in_ = Some sample →
  in_window cfg sample startIndex →
  heap s !! out = Some output →
  (Engine.getNumModels c ≤ length output)%nat →
  Plugin.classifySample cfg in_ startIndex out s
  = Done tt (set_heap (<[out := probabilities cfg c sample startIndex
                                 ++ drop (Engine.getNumModels c) output]> (heap s)) s).
Proof.
  intros Hc Hin Hw Hout Hlen. unfold Plugin.classifySample.
  rewrite (bind_Done get _ s s s) by done. rewrite Hc.
  rewrite (bind_Done _ _ _ _ _ (pin_Some _ _ _ Hin)).
  erewrite bind_Done.
  2:{ apply (for_project
               (λ i ptr, Engine.getProjectedData cfg c i ptr (MATCH_STEPS cfg + 1))).
      - destruct Hw. lia.
      - intros i. by apply getProjectedData_in_window. }
  rewrite app_nil_l. fold (projected cfg c sample startIndex).
  destruct (probabilities_vector cfg c sample startIndex) as (Hcl & Hpl & _).
  rewrite Hcl.
  rewrite (bind_Done (lift _ (Some _)) _ _ _ _ eq_refl).
  rewrite (bind_Done _ _ _ _ _ (release_abort _ _ _)).
  rewrite pin_release_state.
  rewrite (bind_Done _ _ _ _ _ (pin_Some _ _ _ Hout)).
  erewrite bind_Done.
  2:{ apply (for_store _ (Engine.getNumModels c) 0); simpl; lia. }
  rewrite release_commit. simpl.
  rewrite drop_0, firstn_all2 by lia.
  by destruct s.
Qed.

(** *** The metric *)

Lemma euclid_sym p q : Engine.euclid p q = Engine.euclid q p.
Proof.
  unfold Engine.euclid. f_equal. f_equal. revert q.
  induction p as [|a p IH]; intros [|b q]; simpl; [done..|].
  f_equal; [lra|apply IH].
Qed.

Lemma euclid_refl p : Engine.euclid p p = 0.
Proof.
  unfold Engine.euclid. rewrite Rsum_zero; [apply sqrt_0|].
  induction p as [|a p IH]; simpl; constructor; [lra|done].
Qed.

(** *** Faults and frames of [classifySample] *)

(** The copy loop leaves its buffer when the buffer is too short. *)
Lemma for_store_short (probs : list R) n : ∀ k output s,
  (k + n ≤ length probs)%nat → (k ≤ length output < k + n)%nat →
  for_ (seq k n) (λ i output, x ← CV_MAT_ELEM probs i; store output i x) output s
  = Fault OutOfBounds.
Proof.
  unfold CV_MAT_ELEM, store. run.
  induction n as [|n IH]; intros k output s Hp Ho; simpl; [lia|].
  destruct (lookup_lt_is_Some_2 probs k) as [x Hx]; [lia|].
  run. rewrite Hx. case_decide as Hk; [|done].
  apply IH; rewrite ?length_insert; lia.
Qed.

Lemma classifySample_short_out cfg in_ startIndex out s c sample output :
  classifier s = Some c →
  heap s !! in_ = Some sample →
  in_window cfg sample startIndex →
  heap s !! out = Some output →
  (length output < Engine.getNumModels c)%nat →
  Plugin.classifySample cfg in_ startIndex out s = Fault OutOfBounds.
Proof.
  intros Hc Hin Hw Hout Hlen. unfold Plugin.classifySample.
  rewrite (bind_Done get _ s s s) by done. rewrite Hc.
  rewrite (bind_Done _ _ _ _ _ (pin_Some _ _ _ Hin)).
  erewrite bind_Done.
  2:{ apply (for_project
               (λ i ptr, Engine.getProjectedData cfg c i ptr (MATCH_STEPS cfg + 1))).
      - destruct Hw. lia.
      - intros i. by apply getProjectedData_in_window. }
  rewrite app_nil_l. fold (projected cfg c sample startIndex).
  destruct (probabilities_vector cfg c sample startIndex) as (Hcl & Hpl & _).
  rewrite Hcl.
  rewrite (bind_Done (lift _ (Some _)) _ _ _ _ eq_refl).
  rewrite (bind_Done _ _ _ _ _ (release_abort _ _ _)).
  rewrite pin_release_state.
  rewrite (bind_Done _ _ _ _ _ (pin_Some _ _ _ Hout)).
  apply bind_Fault, for_store_short; simpl; lia.
Qed.

(** With a loaded but empty collection neither loop runs: the call returns
    and nothing has changed. *)
Lemma classifySample_empty_collection cfg in_ startIndex out s c sample output :
  classifier s = Some c →
  models c = [] →
  heap s !! in_ = Some sample →
  heap s !! out = Some output →
  Plugin.classifySample cfg in_ startIndex out s = Done tt s.
Proof.
  intros Hc Hm Hin Hout. unfold Plugin.classifySample.
  rewrite (bind_Done get _ s s s) by done. rewrite Hc.
  rewrite (bind_Done _ _ _ _ _ (pin_Some _ _ _ Hin)).
  unfold Engine.getNumModels, Engine.classify. rewrite Hm. simpl.
  rewrite (bind_Done (mret []) _ _ [] _) by done.
  rewrite (bind_Done (mret []) _ _ [] _) by done.
  rewrite (bind_Done _ _ _ _ _ (release_abort _ _ _)).
  rewrite pin_release_state.
  rewrite (bind_Done _ _ _ _ _ (pin_Some _ _ _ Hout)).
  rewrite (bind_Done (mret output) _ _ output _) by done.
  rewrite release_commit. simpl. rewrite insert_id by done.
  by destruct s.
Qed.

(** The loops of [classifySample] do not touch the state. *)
Lemma for_project_state (g : nat → list R → option (list R)) sample startIndex
    ix acc s d s' :
  for_ ix (λ i data, ptr ← offset sample startIndex;
                     d ← lift OutOfBounds (g i ptr);
                     mret (data ++ [d])) acc s
  = Done d s' → s' = s.
Proof.
  unfold offset. run. revert acc.
  induction ix as [|i ix IH]; intros acc; simpl; run; [congruence|].
  case_decide; [|done].
  destruct (g i (drop (Z.to_nat startIndex) sample)); simpl; run; [eauto|done].
Qed.

Lemma lift_state {A} k (o : option A) s a s' : lift k o s = Done a s' → s' = s.
Proof. destruct o; simpl; run; congruence. Qed.

Lemma for_store_state (probs : list R) ix output s o' s' :
  for_ ix (λ i output, x ← CV_MAT_ELEM probs i; store output i x) output s
  = Done o' s' → s' = s.
Proof.
  unfold CV_MAT_ELEM, store. run. revert output.
  induction ix as [|i ix IH]; intros output; simpl; run; [congruence|].
  destruct (probs !! i); [|done]. case_decide; [eauto|done].
Qed.

(** The copy loop keeps the length of its buffer. *)
Lemma for_store_length (probs : list R) ix output s o' s' :
  for_ ix (λ i output, x ← CV_MAT_ELEM probs i; store output i x) output s
  = Done o' s' → length o' = length output.
Proof.
  unfold CV_MAT_ELEM, store. run. revert output.
  induction ix as [|i ix IH]; intros output; simpl; run; [congruence|].
  destruct (probs !! i); [|done]. case_decide; [|done].
  intros Hrun. apply IH in Hrun. by rewrite length_insert in Hrun.
Qed.

(** The projection loop forms [sample + startIndex] in its first round. *)
Lemma for_project_fault (g : nat → list R → option (list R)) sample startIndex
    i ix acc s :
  ¬ (0 ≤ startIndex ≤ Z.of_nat (length sample))%Z →
  for_ (i :: ix) (λ i data, ptr ← offset sample startIndex;
                            d ← lift OutOfBounds (g i ptr);
                            mret (data ++ [d])) acc s
  = Fault OutOfBounds.
Proof. intros Hr. simpl. unfold offset. by rewrite decide_False by done. Qed.

(** The two ways in which a call of [classifySample] returns: early, with an
    exception pending because an array could not be obtained, or after
    committing an output buffer of the length it had. *)
Lemma classifySample_returns cfg in_ startIndex out s s' :
  Plugin.classifySample cfg in_ startIndex out s = Done tt s' →
  ((heap s !! in_ = None ∨ heap s !! out = None) ∧ s' = set_pending true s)
  ∨ (∃ output output',
       heap s !! out = Some output
       ∧ length output' = length output
       ∧ s' = set_heap (<[out := output']> (heap s)) s).
Proof.
  unfold Plugin.classifySample.
  rewrite (bind_Done get _ s s s) by done.
  destruct (classifier s) as [c|]; [|done].
  destruct (heap s !! in_) as [sample|] eqn:Hin.
  - rewrite (bind_Done _ _ _ _ _ (pin_Some _ _ _ Hin)).
    match goal with |- (?m ≫= _) ?st = _ → _ => destruct (m st) as [data s1|k] eqn:Hd end.
    2:{ by rewrite (bind_Fault _ _ _ _ Hd). }
    rewrite (bind_Done _ _ _ _ _ Hd).
    apply for_project_state in Hd as ->.
    match goal with |- (?m ≫= _) ?st = _ → _ => destruct (m st) as [probs s1|k] eqn:Hp end.
    2:{ by rewrite (bind_Fault _ _ _ _ Hp). }
    rewrite (bind_Done _ _ _ _ _ Hp).
    apply lift_state in Hp as ->.
    rewrite (bind_Done _ _ _ _ _ (release_abort _ _ _)).
    rewrite pin_release_state.
    destruct (heap s !! out) as [output|] eqn:Hout.
    + rewrite (bind_Done _ _ _ _ _ (pin_Some _ _ _ Hout)).
      match goal with |- (?m ≫= _) ?st = _ → _ => destruct (m st) as [o' s2|k] eqn:Ho end.
      2:{ by rewrite (bind_Fault _ _ _ _ Ho). }
      rewrite (bind_Done _ _ _ _ _ Ho).
      pose proof (for_store_length _ _ _ _ _ _ Ho) as Hlen.
      apply for_store_state in Ho as ->.
      rewrite release_commit. intros [= <-]. right.
      exists output, o'. split_and!; [done..|]. by destruct s.
    + rewrite (bind_Done _ _ _ _ _ (pin_None _ _ Hout)).
      intros [= <-]. left. auto.
  - rewrite (bind_Done _ _ _ _ _ (pin_None _ _ Hin)).
    intros [= <-]. left. auto.
Qed.

(** Every call of [classifySample] that returns leaves all arrays but its
    output buffer as they were. *)
Lemma classifySample_frame cfg in_ startIndex out s s' a :
  a ≠ out →
  Plugin.classifySample cfg in_ startIndex out s = Done tt s' →
  heap s' !! a = heap s !! a.
Proof.
  intros Hne Hrun.
  apply classifySample_returns in Hrun as [[_ ->]|(o & o' & _ & _ & ->)]; [done|].
  simpl. by rewrite lookup_insert_ne.
Qed.

(** ** Properties of the bindings *)

(** C1.  With a collection loaded, the window and the output buffer
    obtainable, the steps to project inside the window and room for one
    entry per model, [classifySample] returns: the classification carries
    out no division by zero and yields a vector, left in the first [M]
    entries of [out], whose entries lie in [0,1]; the entries sum to 1 when
    some model holds a reference point and are all zero otherwise. *)
Theorem classifySample_probability_vector cfg in_ startIndex out s c sample output :
  classifier s = Some c →
  heap s !! in_ = Some sample →
  in_window cfg sample startIndex →
  heap s !! out = Some output →
  (Engine.getNumModels c ≤ length output)%nat →
  ∃ s' pv,
    Plugin.classifySample cfg in_ startIndex out s = Done tt s'
    ∧ Engine.classify cfg c (projected cfg c sample startIndex) (MATCH_STEPS cfg)
      = Some pv
    ∧ heap s' !! out = Some (pv ++ drop (Engine.getNumModels c) output)
    ∧ length pv = Engine.getNumModels c
    ∧ Forall (λ p, 0 <= p <= 1) pv
    ∧ (indexed c → Rsum pv = 1)
    ∧ (¬ indexed c → Forall (λ p, p = 0) pv).
Proof.
  intros Hc Hin Hw Hout Hlen.
  destruct (probabilities_vector cfg c sample startIndex)
    as (Hcl & Hpl & Hrange & Hsum & Hzero).
  eexists _, (probabilities cfg c sample startIndex). split_and!; try done.
  - by apply classifySample_loaded.
  - simpl. apply lookup_insert_eq.
Qed.

Lemma classifySample_probability_vector_witness :
  ∃ s' pv,
    Plugin.classifySample cfg0 1%nat 0 2%nat ready = Done tt s'
    ∧ Engine.classify cfg0 twoModels (projected cfg0 twoModels [10; 0; 10; 0] 0)
        (MATCH_STEPS cfg0) = Some pv
    ∧ heap s' !! 2%nat = Some (pv ++ drop (Engine.getNumModels twoModels) [7; 7; 7])
    ∧ length pv = Engine.getNumModels twoModels
    ∧ Forall (λ p, 0 <= p <= 1) pv
    ∧ (indexed twoModels → Rsum pv = 1)
    ∧ (¬ indexed twoModels → Forall (λ p, p = 0) pv).
Proof.
  apply (classifySample_probability_vector cfg0 1%nat 0 2%nat ready twoModels
           [10; 0; 10; 0] [7; 7; 7]);
    [reflexivity | reflexivity | unfold in_window; simpl; lia | reflexivity
    | unfold Engine.getNumModels; simpl; lia].
Defined.

(** C2.  With no collection loaded, [getNumModels] and [getWindowSize]
    return 0 and [getModelNames] returns the empty string; each call returns
    and leaves the state as it was. *)
Theorem idle_queries cfg s :
  classifier s = None →
  Plugin.getNumModels s = Done 0%Z s
  ∧ Plugin.getWindowSize s = Done 0%Z s
  ∧ Plugin.getModelNames cfg s = Done ""%string s.
Proof.
  intros Hc. unfold Plugin.getNumModels, Plugin.getWindowSize, Plugin.getModelNames.
  rewrite !(bind_Done get _ s s s) by done. by rewrite Hc.
Qed.

Lemma idle_queries_witness :
  Plugin.getNumModels idle = Done 0%Z idle
  ∧ Plugin.getWindowSize idle = Done 0%Z idle
  ∧ Plugin.getModelNames cfg0 idle = Done ""%string idle.
Proof. apply (idle_queries cfg0 idle). reflexivity. Defined.

(** C3.  Before any collection is loaded the global [classifier] is NULL and
    [classifySample] dereferences it in its first statement: the call has no
    defined result, whatever the arrays are. *)
Theorem classifySample_not_loaded cfg in_ startIndex out s :
  Plugin.classifySample cfg in_ startIndex out (set_classifier None s)
  = Fault NullDereference.
Proof. reflexivity. Qed.

(** C4, as the code has it.  [classifyTrajectory] always returns, after
    calling the engine's load, whole-file classification and unload in this
    order, whether or not the load succeeded; afterwards no collection is
    loaded and no array has changed. *)
Theorem classifyTrajectory_sequence inputFile outputFile modelsFile s :
  ∃ s',
    Plugin.classifyTrajectory inputFile outputFile modelsFile s = Done tt s'
    ∧ trace s' = trace s ++ [EvLoad modelsFile (bool_decide (is_Some (files s !! modelsFile)));
                             EvClassifyTrajectory inputFile outputFile;
                             EvCleanUp]
    ∧ classifier s' = None
    ∧ heap s' = heap s.
Proof.
  unfold Plugin.classifyTrajectory, Engine.loadModels, Engine.classifyTrajectory,
    Engine.cleanUpModels. run.
  destruct (files s !! modelsFile) as [c|] eqn:Hf; simpl.
  - eexists. split; [done|]. simpl. rewrite <- !app_assoc. done.
  - destruct (classifier s) eqn:Hc; simpl; rewrite ?Hc; simpl;
      (eexists; split; [done|]); simpl; rewrite <- !app_assoc; done.
Qed.

(** C4, as stated, fails: with no model file to load, the load fails and the
    whole-file classification is called all the same. *)
Lemma classifyTrajectory_runs_after_failed_load :
  files idle !! "models"%string = None
  ∧ ∃ s', Plugin.classifyTrajectory "in" "out" "models" idle = Done tt s'
          ∧ trace s' = [EvLoad "models" false; EvClassifyTrajectory "in" "out"; EvCleanUp].
Proof. split; [reflexivity|]. eexists. split; reflexivity. Qed.

(** C5.  For two arrays of [dim] elements each, the distance the binding
    returns does not depend on the order of the arguments, the distance of an
    array to itself is 0, and the calls leave the state as it was. *)
Theorem annDist_symmetric_zero dim p q s pa qa :
  heap s !! p = Some pa →
  heap s !! q = Some qa →
  length pa = Z.to_nat dim →
  length qa = Z.to_nat dim →
  ∃ d,
    Plugin.annDist dim p q s = Done d s
    ∧ Plugin.annDist dim q p s = Done d s
    ∧ Plugin.annDist dim p p s = Done 0 s.
Proof.
  intros Hp Hq Lp Lq. exists (Engine.euclid pa qa).
  assert (∀ a b xa xb, heap s !! a = Some xa → heap s !! b = Some xb →
            length xa = Z.to_nat dim → length xb = Z.to_nat dim →
            Plugin.annDist dim a b s = Done (Engine.euclid xa xb) s) as Hrun.
  { intros a b xa xb Ha Hb La Lb. unfold Plugin.annDist.
    rewrite (bind_Done _ _ _ _ _ (pin_Some _ _ _ Ha)).
    erewrite bind_Done by (by apply pin_Some).
    unfold Engine.annDist. rewrite decide_True by lia.
    rewrite !take_ge by lia.
    rewrite (bind_Done _ _ _ _ _ (release_abort _ _ _)).
    rewrite (bind_Done _ _ _ _ _ (release_abort _ _ _)).
    by destruct s. }
  split_and!.
  - by apply Hrun.
  - rewrite euclid_sym. by apply Hrun.
  - rewrite <- (euclid_refl pa). by apply Hrun.
Qed.

Lemma annDist_symmetric_zero_witness :
  ∃ d,
    Plugin.annDist 2 2%nat 4%nat (set_heap (<[2%nat := [3; 4]]> (heap idle)) idle)
    = Done d (set_heap (<[2%nat := [3; 4]]> (heap idle)) idle)
    ∧ Plugin.annDist 2 4%nat 2%nat (set_heap (<[2%nat := [3; 4]]> (heap idle)) idle)
      = Done d (set_heap (<[2%nat := [3; 4]]> (heap idle)) idle)
    ∧ Plugin.annDist 2 2%nat 2%nat (set_heap (<[2%nat := [3; 4]]> (heap idle)) idle)
      = Done 0 (set_heap (<[2%nat := [3; 4]]> (heap idle)) idle).
Proof.
  apply (annDist_symmetric_zero 2 2%nat 4%nat _ [3; 4] [7; 7]); reflexivity.
Defined.

(** C6, as the code has it.  When the output buffer is another array than
    the window, every call of [classifySample] that returns leaves the
    window's contents as they were. *)
Theorem classifySample_window_unchanged cfg in_ startIndex out s s' :
  in_ ≠ out →
  Plugin.classifySample cfg in_ startIndex out s = Done tt s' →
  heap s' !! in_ = heap s !! in_.
Proof. apply classifySample_frame. Qed.

Lemma classifySample_window_unchanged_witness :
  ∃ s', Plugin.classifySample cfg0 1%nat 0 2%nat ready = Done tt s'
        ∧ heap s' !! 1%nat = heap ready !! 1%nat.
Proof.
  eexists. split.
  - apply (classifySample_loaded cfg0 1%nat 0 2%nat ready twoModels
             [10; 0; 10; 0] [7; 7; 7]);
      [reflexivity | reflexivity | unfold in_window; simpl; lia | reflexivity
      | unfold Engine.getNumModels; simpl; lia].
  - apply (classifySample_window_unchanged cfg0 1%nat 0 2%nat ready); [lia|].
    apply (classifySample_loaded cfg0 1%nat 0 2%nat ready twoModels
             [10; 0; 10; 0] [7; 7; 7]);
      [reflexivity | reflexivity | unfold in_window; simpl; lia | reflexivity
      | unfold Engine.getNumModels; simpl; lia].
Defined.

(** C6, as stated, fails: a caller that passes the window itself as the
    output buffer gets the window's first entries overwritten with the
    probabilities. *)
Lemma classifySample_aliased_window_changes :
  ∃ s', Plugin.classifySample cfg0 1%nat 0 1%nat ready = Done tt s'
        ∧ heap s' !! 1%nat ≠ heap ready !! 1%nat.
Proof.
  eexists. split.
  - apply (classifySample_loaded cfg0 1%nat 0 1%nat ready twoModels
             [10; 0; 10; 0] [10; 0; 10; 0]);
      [reflexivity | reflexivity | unfold in_window; simpl; lia | reflexivity
      | unfold Engine.getNumModels; simpl; lia].
  - replace (heap ready !! 1%nat) with (Some [10; 0; 10; 0]) by reflexivity.
    unfold set_heap, heap at 1. rewrite lookup_insert_eq.
    pose proof (probabilities_range cfg0 twoModels [10; 0; 10; 0] 0) as Hr.
    pose proof (length_probabilities cfg0 twoModels [10; 0; 10; 0] 0) as Hl.
    destruct (probabilities cfg0 twoModels [10; 0; 10; 0] 0) as [|p0 pv];
      [discriminate|].
    intros [= Hp0 _]. apply Forall_cons in Hr as [Hr _]. lra.
Qed.

(** C7, as the code has it.  [classifySample] does not compare the length
    of [out] with the number of models: with the steps to project inside
    the window, any buffer with at least one entry per model is accepted, the
    call returns with the buffer's length unchanged and raises no
    exception. *)
Theorem classifySample_no_length_check cfg in_ startIndex out s c sample output :
  classifier s = Some c →
  heap s !! in_ = Some sample →
  in_window cfg sample startIndex →
  heap s !! out = Some output →
  (Engine.getNumModels c ≤ length output)%nat →
  ∃ s' output',
    Plugin.classifySample cfg in_ startIndex out s = Done tt s'
    ∧ heap s' !! out = Some output'
    ∧ length output' = length output
    ∧ pending s' = pending s.
Proof.
  intros Hc Hin Hr Hout Hlen. eexists _, _. split_and!.
  - by apply classifySample_loaded.
  - simpl. apply lookup_insert_eq.
  - rewrite length_app, length_drop, length_probabilities. lia.
  - done.
Qed.

Lemma classifySample_no_length_check_witness :
  ∃ s' output',
    Plugin.classifySample cfg0 1%nat 0 2%nat ready = Done tt s'
    ∧ heap s' !! 2%nat = Some output'
    ∧ length output' = length [7; 7; 7]
    ∧ pending s' = pending ready.
Proof.
  apply (classifySample_no_length_check cfg0 1%nat 0 2%nat ready twoModels
           [10; 0; 10; 0] [7; 7; 7]);
    [reflexivity | reflexivity | unfold in_window; simpl; lia | reflexivity
    | unfold Engine.getNumModels; simpl; lia].
Defined.

(** C7, as stated, fails: with two models loaded, a buffer of three entries
    is filled without complaint, and a buffer of no entries makes the copy
    loop write outside it. *)
Lemma classifySample_length_mismatch :
  (∃ s', length [7; 7; 7] ≠ Engine.getNumModels twoModels
         ∧ Plugin.classifySample cfg0 1%nat 0 2%nat ready = Done tt s'
         ∧ pending s' = false)
  ∧ (length (@nil R) ≠ Engine.getNumModels twoModels
     ∧ Plugin.classifySample cfg0 1%nat 0 3%nat ready = Fault OutOfBounds).
Proof.
  split.
  - eexists. split_and!; [by compute| |].
    + apply (classifySample_loaded cfg0 1%nat 0 2%nat ready twoModels
               [10; 0; 10; 0] [7; 7; 7]);
        [reflexivity | reflexivity | unfold in_window; simpl; lia | reflexivity
        | unfold Engine.getNumModels; simpl; lia].
    + reflexivity.
  - split; [by compute|].
    apply (classifySample_short_out cfg0 1%nat 0 3%nat ready twoModels
             [10; 0; 10; 0] []);
      [reflexivity | reflexivity | unfold in_window; simpl; lia | reflexivity
      | unfold Engine.getNumModels; simpl; lia].
Qed.

(** C9.  With a collection of [M] models loaded, both arrays obtainable,
    the steps to project inside the window and [out] of at least [M]
    entries, [classifySample] returns with entry [i < M] of [out] holding
    the probability [classify] gave for model [i] and every entry at [M] or
    beyond as it was. *)
Theorem classifySample_writes_first_M cfg in_ startIndex out s c sample output :
  classifier s = Some c →
  heap s !! in_ = Some sample →
  in_window cfg sample startIndex →
  heap s !! out = Some output →
  (Engine.getNumModels c ≤ length output)%nat →
  ∃ s' output',
    Plugin.classifySample cfg in_ startIndex out s = Done tt s'
    ∧ Engine.classify cfg c (projected cfg c sample startIndex) (MATCH_STEPS cfg)
      = Some (probabilities cfg c sample startIndex)
    ∧ heap s' !! out = Some output'
    ∧ (∀ i, (i < Engine.getNumModels c)%nat →
            output' !! i = probabilities cfg c sample startIndex !! i)
    ∧ (∀ i, (Engine.getNumModels c ≤ i)%nat → output' !! i = output !! i).
Proof.
  intros Hc Hin Hw Hout Hlen.
  pose proof (length_probabilities cfg c sample startIndex) as Hpl.
  eexists _, _. split_and!.
  - by apply classifySample_loaded.
  - apply probabilities_vector.
  - simpl. apply lookup_insert_eq.
  - intros i Hi. apply lookup_app_l. lia.
  - intros i Hi. rewrite lookup_app_r by lia. rewrite lookup_drop.
    f_equal. lia.
Qed.

Lemma classifySample_writes_first_M_witness :
  ∃ s' output',
    Plugin.classifySample cfg0 1%nat 0 2%nat ready = Done tt s'
    ∧ Engine.classify cfg0 twoModels (projected cfg0 twoModels [10; 0; 10; 0] 0)
        (MATCH_STEPS cfg0) = Some (probabilities cfg0 twoModels [10; 0; 10; 0] 0)
    ∧ heap s' !! 2%nat = Some output'
    ∧ (∀ i, (i < Engine.getNumModels twoModels)%nat →
            output' !! i = probabilities cfg0 twoModels [10; 0; 10; 0] 0 !! i)
    ∧ (∀ i, (Engine.getNumModels twoModels ≤ i)%nat →
            output' !! i = [7; 7; 7] !! i).
Proof.
  apply (classifySample_writes_first_M cfg0 1%nat 0 2%nat ready twoModels
           [10; 0; 10; 0] [7; 7; 7]);
    [reflexivity | reflexivity | unfold in_window; simpl; lia | reflexivity
    | unfold Engine.getNumModels; simpl; lia].
Defined.

(** C10.  When either array of [annDist] cannot be obtained, the binding
    returns 0 and leaves the exception pending. *)
Theorem annDist_null_array dim p q s :
  heap s !! p = None ∨ heap s !! q = None →
  ∃ s', Plugin.annDist dim p q s = Done 0 s' ∧ pending s' = true.
Proof.
  intros Hnull. unfold Plugin.annDist.
  destruct (heap s !! p) as [pa|] eqn:Hp.
  - destruct Hnull as [|Hq]; [done|].
    rewrite (bind_Done _ _ _ _ _ (pin_Some _ _ _ Hp)).
    erewrite bind_Done by (by apply pin_None).
    by eexists.
  - rewrite (bind_Done _ _ _ _ _ (pin_None _ _ Hp)).
    destruct (heap s !! q) as [qa|] eqn:Hq.
    + erewrite bind_Done by (by apply pin_Some). by eexists.
    + erewrite bind_Done by (by apply pin_None). by eexists.
Qed.

Lemma annDist_null_array_witness :
  ∃ s', Plugin.annDist 2 1%nat 9%nat idle = Done 0 s' ∧ pending s' = true.
Proof. apply (annDist_null_array 2 1%nat 9%nat idle). right. reflexivity. Defined.

(** ** Further properties of the bindings *)

(** X1.  When exactly one of the two arrays of [annDist] can be obtained,
    the early return skips its release: the call returns 0 with one more
    critical section open than before. *)
Theorem annDist_leaves_array_pinned dim p q s :
  (is_Some (heap s !! p) ∧ heap s !! q = None)
  ∨ (heap s !! p = None ∧ is_Some (heap s !! q)) →
  ∃ s', Plugin.annDist dim p q s = Done 0 s'
        ∧ pinned s' = S (pinned s)
        ∧ heap s' = heap s.
Proof.
  intros [[[pa Hp] Hq]|[Hp [qa Hq]]]; unfold Plugin.annDist.
  - rewrite (bind_Done _ _ _ _ _ (pin_Some _ _ _ Hp)).
    erewrite bind_Done by (by apply pin_None). by eexists.
  - rewrite (bind_Done _ _ _ _ _ (pin_None _ _ Hp)).
    erewrite bind_Done by (by apply pin_Some). by eexists.
Qed.

Lemma annDist_leaves_array_pinned_witness :
  ∃ s', Plugin.annDist 2 1%nat 9%nat idle = Done 0 s'
        ∧ pinned s' = S (pinned idle)
        ∧ heap s' = heap idle.
Proof.
  apply (annDist_leaves_array_pinned 2 1%nat 9%nat idle).
  left. split; [eexists|]; reflexivity.
Defined.

(** X2.  Whatever its arguments, a call of [annDist] that returns has
    changed no Java array, nor the loaded collection. *)
Theorem annDist_read_only dim p q s :
  match Plugin.annDist dim p q s with
  | Done _ s' => heap s' = heap s ∧ classifier s' = classifier s
  | Fault _ => True
  end.
Proof.
  unfold Plugin.annDist.
  destruct (heap s !! p) as [pa|] eqn:Hp.
  - rewrite (bind_Done _ _ _ _ _ (pin_Some _ _ _ Hp)).
    destruct (heap s !! q) as [qa|] eqn:Hq.
    + erewrite bind_Done by (by apply pin_Some).
      cbv beta iota.
      destruct (Engine.annDist dim pa qa) as [d|]; [|exact I].
      rewrite (bind_Done _ _ _ _ _ (release_abort _ _ _)).
      by rewrite (bind_Done _ _ _ _ _ (release_abort _ _ _)).
    + by erewrite bind_Done by (by apply pin_None).
  - rewrite (bind_Done _ _ _ _ _ (pin_None _ _ Hp)).
    destruct (heap s !! q) as [qa|] eqn:Hq.
    + by erewrite bind_Done by (by apply pin_Some).
    + by erewrite bind_Done by (by apply pin_None).
Qed.

(** X3.  When the window of [classifySample] cannot be obtained, the call
    returns at once: an exception is pending and nothing else has changed,
    whatever the output buffer is. *)
Theorem classifySample_window_unavailable cfg in_ startIndex out s c :
  classifier s = Some c →
  heap s !! in_ = None →
  Plugin.classifySample cfg in_ startIndex out s = Done tt (set_pending true s).
Proof.
  intros Hc Hin. unfold Plugin.classifySample.
  rewrite (bind_Done get _ s s s) by done. rewrite Hc.
  by rewrite (bind_Done _ _ _ _ _ (pin_None _ _ Hin)).
Qed.

Lemma classifySample_window_unavailable_witness :
  Plugin.classifySample cfg0 9%nat 0 2%nat ready = Done tt (set_pending true ready).
Proof.
  apply (classifySample_window_unavailable cfg0 9%nat 0 2%nat ready twoModels);
    reflexivity.
Defined.

(** X4.  When the steps to project can be read from the window but the
    output buffer cannot be obtained, the call returns with an exception
    pending; the window has
    been released, so no critical section stays open, and no array has
    changed. *)
Theorem classifySample_out_unavailable cfg in_ startIndex out s c sample :
  classifier s = Some c →
  heap s !! in_ = Some sample →
  in_window cfg sample startIndex →
  heap s !! out = None →
  Plugin.classifySample cfg in_ startIndex out s = Done tt (set_pending true s).
Proof.
  intros Hc Hin Hw Hout. unfold Plugin.classifySample.
  rewrite (bind_Done get _ s s s) by done. rewrite Hc.
  rewrite (bind_Done _ _ _ _ _ (pin_Some _ _ _ Hin)).
  erewrite bind_Done.
  2:{ apply (for_project
               (λ i ptr, Engine.getProjectedData cfg c i ptr (MATCH_STEPS cfg + 1))).
      - destruct Hw. lia.
      - intros i. by apply getProjectedData_in_window. }
  rewrite app_nil_l. fold (projected cfg c sample startIndex).
  destruct (probabilities_vector cfg c sample startIndex) as (Hcl & _).
  rewrite Hcl.
  rewrite (bind_Done (lift _ (Some _)) _ _ _ _ eq_refl).
  rewrite (bind_Done _ _ _ _ _ (release_abort _ _ _)).
  rewrite pin_release_state.
  by rewrite (bind_Done _ _ _ _ _ (pin_None _ _ Hout)).
Qed.

Lemma classifySample_out_unavailable_witness :
  Plugin.classifySample cfg0 1%nat 0 9%nat ready = Done tt (set_pending true ready).
Proof.
  apply (classifySample_out_unavailable cfg0 1%nat 0 9%nat ready twoModels
           [10; 0; 10; 0]); [reflexivity | reflexivity | unfold in_window; simpl; lia | reflexivity].
Defined.

(** X5.  [startIndex] is not checked: with at least one model loaded, an
    offset before the start or past the end of the window makes the first
    round of the projection loop form a pointer outside the array. *)
Theorem classifySample_offset_unchecked cfg in_ startIndex out s c sample :
  classifier s = Some c →
  models c ≠ [] →
  heap s !! in_ = Some sample →
  (startIndex < 0 ∨ Z.of_nat (length sample) < startIndex)%Z →
  Plugin.classifySample cfg in_ startIndex out s = Fault OutOfBounds.
Proof.
  intros Hc Hm Hin Hr. unfold Plugin.classifySample.
  rewrite (bind_Done get _ s s s) by done. rewrite Hc.
  rewrite (bind_Done _ _ _ _ _ (pin_Some _ _ _ Hin)).
  unfold Engine.getNumModels. destruct (models c) as [|m ms]; [done|].
  simpl length. rewrite <- cons_seq.
  apply bind_Fault, for_project_fault. lia.
Qed.

Lemma classifySample_offset_unchecked_witness :
  Plugin.classifySample cfg0 1%nat (-1) 2%nat ready = Fault OutOfBounds.
Proof.
  apply (classifySample_offset_unchecked cfg0 1%nat (-1) 2%nat ready twoModels
           [10; 0; 10; 0]); [reflexivity | discriminate | reflexivity | lia].
Defined.

(** X6.  With a collection loaded, both arrays obtainable and the steps to
    project inside the window, [classifySample] writes outside the output
    buffer exactly when the buffer has fewer entries than there are
    models. *)
Theorem classifySample_overrun_iff cfg in_ startIndex out s c sample output :
  classifier s = Some c →
  heap s !! in_ = Some sample →
  in_window cfg sample startIndex →
  heap s !! out = Some output →
  Plugin.classifySample cfg in_ startIndex out s = Fault OutOfBounds
  ↔ (length output < Engine.getNumModels c)%nat.
Proof.
  intros Hc Hin Hr Hout. split.
  - intros Hf. destruct (decide (length output < Engine.getNumModels c)%nat) as [|Hge];
      [done|].
    rewrite (classifySample_loaded cfg in_ startIndex out s c sample output) in Hf;
      [done..|lia].
  - by apply classifySample_short_out with sample.
Qed.

Lemma classifySample_overrun_iff_witness :
  Plugin.classifySample cfg0 1%nat 0 3%nat ready = Fault OutOfBounds
  ↔ (length (@nil R) < Engine.getNumModels twoModels)%nat.
Proof.
  apply (classifySample_overrun_iff cfg0 1%nat 0 3%nat ready twoModels
           [10; 0; 10; 0] []); [reflexivity | reflexivity | unfold in_window; simpl; lia | reflexivity].
Defined.

(** X7.  With a loaded collection of no models, [classifySample] returns
    and leaves the whole state as it was, whatever the offset and however
    short the output buffer. *)
Theorem classifySample_no_models cfg in_ startIndex out s c sample output :
  classifier s = Some c →
  models c = [] →
  heap s !! in_ = Some sample →
  heap s !! out = Some output →
  Plugin.classifySample cfg in_ startIndex out s = Done tt s.
Proof. apply classifySample_empty_collection. Qed.

Lemma classifySample_no_models_witness :
  Plugin.classifySample cfg0 1%nat (-5) 3%nat
    (set_classifier (Some (mkClassifier [])) idle)
  = Done tt (set_classifier (Some (mkClassifier [])) idle).
Proof.
  apply (classifySample_no_models cfg0 1%nat (-5) 3%nat _ (mkClassifier [])
           [10; 0; 10; 0] []); reflexivity.
Defined.

(** X8.  Every call of [classifySample] that returns has released each
    array it obtained (as many critical sections are open as before) and has
    left the loaded collection, ANN's global state and the record of engine
    calls as they were. *)
Theorem classifySample_balanced cfg in_ startIndex out s :
  match Plugin.classifySample cfg in_ startIndex out s with
  | Done _ s' =>
      pinned s' = pinned s
      ∧ classifier s' = classifier s
      ∧ kd_trivial s' = kd_trivial s
      ∧ trace s' = trace s
  | Fault _ => True
  end.
Proof.
  destruct (Plugin.classifySample cfg in_ startIndex out s) as [[] s'|] eqn:E; [|done].
  by apply classifySample_returns in E as [[_ ->]|(? & ? & _ & _ & ->)].
Qed.

(** X9.  Every call of [classifySample] that returns has created, removed
    and resized no Java array, and has changed the contents of none but the
    output buffer. *)
Theorem classifySample_arrays_kept cfg in_ startIndex out s :
  match Plugin.classifySample cfg in_ startIndex out s with
  | Done _ s' =>
      ∀ a, match heap s !! a, heap s' !! a with
           | Some l, Some l' => length l' = length l ∧ (a ≠ out → l' = l)
           | None, None => True
           | _, _ => False
           end
  | Fault _ => True
  end.
Proof.
  destruct (Plugin.classifySample cfg in_ startIndex out s) as [[] s'|] eqn:E; [|done].
  intros a.
  apply classifySample_returns in E as [[_ ->]|(o & o' & Ho & Hlen & ->)]; simpl.
  - by destruct (heap s !! a).
  - destruct (decide (a = out)) as [->|Hne].
    + by rewrite Ho, lookup_insert_eq.
    + rewrite lookup_insert_ne by done. by destruct (heap s !! a).
Qed.

(** X10.  With the steps to project inside the window, repeating a call
    of [classifySample] on the same window and a separate output buffer
    changes nothing further: the second call returns
    with the state the first one left. *)
Theorem classifySample_repeat cfg in_ startIndex out s c sample output :
  classifier s = Some c →
  heap s !! in_ = Some sample →
  in_window cfg sample startIndex →
  heap s !! out = Some output →
  (Engine.getNumModels c ≤ length output)%nat →
  in_ ≠ out →
  ∃ s1, Plugin.classifySample cfg in_ startIndex out s = Done tt s1
        ∧ Plugin.classifySample cfg in_ startIndex out s1 = Done tt s1.
Proof.
  intros Hc Hin Hr Hout Hlen Hne.
  pose proof (length_probabilities cfg c sample startIndex) as Hpl.
  eexists. split; [by apply classifySample_loaded|].
  erewrite (classifySample_loaded cfg in_ startIndex out _ c sample); simpl.
  - rewrite insert_insert_eq. rewrite drop_app_length'; done.
  - done.
  - by rewrite lookup_insert_ne.
  - done.
  - apply lookup_insert_eq.
  - rewrite length_app, length_drop. lia.
Qed.

Lemma classifySample_repeat_witness :
  ∃ s1, Plugin.classifySample cfg0 1%nat 0 2%nat ready = Done tt s1
        ∧ Plugin.classifySample cfg0 1%nat 0 2%nat s1 = Done tt s1.
Proof.
  apply (classifySample_repeat cfg0 1%nat 0 2%nat ready twoModels
           [10; 0; 10; 0] [7; 7; 7]);
    [reflexivity | reflexivity | unfold in_window; simpl; lia | reflexivity
    | unfold Engine.getNumModels; simpl; lia | lia].
Defined.
